(** * Sparkify data lake ETL (etl.py): model and properties

    The script reads two trees of JSON records (a song catalogue and an
    activity log) through Spark, derives five tables and writes them as
    partitioned parquet files.  A DataFrame is modelled as the list of its
    rows, a nullable column as an [option], a SQL query by the list
    operations it denotes.  What the script leaves to Spark and to Python
    (floating point numbers, [datetime], the SQL date functions, the layout
    of rows in partitions, the files themselves) is taken as a parameter:
    the class [Host] and the record [SparkSession] below. *)

From stdpp Require Import base decidable option list strings pretty gmap
  sorting.

Open Scope Z_scope.

(** ** The host libraries *)

(** Python's [float] and [datetime] and Spark's SQL date functions.  The
    script calls them and never looks inside; the model does the same. *)
Class Host := {
  (** [DoubleType] values, compared as the engine groups them *)
  Double : Type;
  Double_eq_dec :: EqDecision Double;
  (** an integer JSON number read into a [DoubleType] column *)
  double_of_int : Z → Double;
  (** the string tokens a [DoubleType] column accepts (["NaN"], ...) *)
  double_of_string : string → option Double;
  (** [t / 1000.0] for an integer [t] *)
  div1000 : Z → Double;
  (** the values of the column [timestamp], which [get_timestamp] makes
      from [datetime] objects, and the order [MAX] uses on that column *)
  datetime : Type;
  datetime_eq_dec :: EqDecision datetime;
  datetime_le : datetime → datetime → bool;
  datetime_le_total : ∀ a b, datetime_le a b = true ∨ datetime_le b a = true;
  datetime_le_trans : ∀ a b c,
    datetime_le a b = true → datetime_le b c = true → datetime_le a c = true;
  datetime_le_antisym : ∀ a b,
    datetime_le a b = true → datetime_le b a = true → a = b;
  (** [datetime.fromtimestamp]; [None] when it raises *)
  fromtimestamp : Double → option datetime;
  (** [str] of a [datetime] *)
  str : datetime → string;
  (** [hour], [day], [weekofyear], [month], [year] and [weekday] of Spark
      SQL, applied to a string column; [None] is NULL *)
  sql_hour : string → option Z;
  sql_day : string → option Z;
  sql_weekofyear : string → option Z;
  sql_month : string → option Z;
  sql_year : string → option Z;
  sql_weekday : string → option Z
}.

Section Model.
Context `{Host}.

(** ** JSON input *)

(** The value of one key of a JSON record, as the parser hands it to the
    schema converter.  Numbers and nested values keep their source text,
    which is what a [StringType] column stores for them. *)
Inductive jtoken :=
  | VALUE_NULL
  | VALUE_STRING (s : string)
  | VALUE_NUMBER_INT (text : string) (z : Z)
  | VALUE_NUMBER_FLOAT (text : string) (d : Double)
  | VALUE_TRUE
  | VALUE_FALSE
  | NESTED (text : string).

(** One record of an input file: text that is not a JSON object, or an
    object with its keys. *)
Inductive jrecord :=
  | NotJson
  | JsonObject (o : gmap string jtoken).

(** The four column types the script imports and uses. *)
Inductive DataType := StringType | DoubleType | IntegerType | LongType.

(** A converted field: [None] is a failed conversion (the record is
    malformed), [Some None] is NULL. *)
Definition convert_string (t : jtoken) : option (option string) :=
  match t with
  | VALUE_NULL => Some None
  | VALUE_STRING s => Some (Some s)
  | VALUE_NUMBER_INT text _ => Some (Some text)
  | VALUE_NUMBER_FLOAT text _ => Some (Some text)
  | VALUE_TRUE => Some (Some "true")
  | VALUE_FALSE => Some (Some "false")
  | NESTED text => Some (Some text)
  end.

Definition convert_double (t : jtoken) : option (option Double) :=
  match t with
  | VALUE_NULL => Some None
  | VALUE_NUMBER_INT _ z => Some (Some (double_of_int z))
  | VALUE_NUMBER_FLOAT _ d => Some (Some d)
  | VALUE_STRING s => Some <$> double_of_string s
  | _ => None
  end.

Definition convert_integral (bits : Z) (t : jtoken) : option (option Z) :=
  match t with
  | VALUE_NULL => Some None
  | VALUE_NUMBER_INT _ z =>
      if bool_decide (- 2 ^ (bits - 1) ≤ z < 2 ^ (bits - 1)) then Some (Some z)
      else None
  | _ => None
  end.

Definition convert_integer := convert_integral 32.
Definition convert_long := convert_integral 64.

(** A key that is absent from the record gives NULL: every [StructField]
    of both schemas is nullable. *)
Definition field {A} (conv : jtoken → option (option A))
    (o : gmap string jtoken) (name : string) : option (option A) :=
  match o !! name with
  | None => Some None
  | Some t => conv t
  end.


Definition df_song_schema : list (string * DataType) :=
  [("artist_id", StringType);
   ("artist_latitude", DoubleType);
   ("artist_location", StringType);
   ("artist_longitude", DoubleType);
   ("artist_name", StringType);
   ("duration", DoubleType);
   ("num_songs", IntegerType);
   ("song_id", StringType);
   ("title", StringType);
   ("year", IntegerType)].

Definition df_log_schema : list (string * DataType) :=
  [("artist", StringType);
   ("auth", StringType);
   ("firstName", StringType);
   ("gender", StringType);
   ("itemInSession", IntegerType);
   ("lastName", StringType);
   ("length", DoubleType);
   ("level", StringType);
   ("location", StringType);
   ("method", StringType);
   ("page", StringType);
   ("registration", DoubleType);
   ("sessionId", IntegerType);
   ("song", StringType);
   ("status", IntegerType);
   ("ts", LongType);
   ("userAgent", StringType);
   ("userId", StringType)].

(** ** Typed records *)

(** A row of [df_song_schema], fields in the order of the schema. *)
Record SongRecord := {
  artist_id : option string;
  artist_latitude : option Double;
  artist_location : option string;
  artist_longitude : option Double;
  artist_name : option string;
  duration : option Double;
  num_songs : option Z;
  song_id : option string;
  title : option string;
  year : option Z
}.

(** A row of [df_log_schema]. *)
Record LogEvent := {
  artist : option string;
  auth : option string;
  firstName : option string;
  gender : option string;
  itemInSession : option Z;
  lastName : option string;
  length_ : option Double;
  level : option string;
  location : option string;
  method : option string;
  page : option string;
  registration : option Double;
  sessionId : option Z;
  song : option string;
  status : option Z;
  ts : option Z;
  userAgent : option string;
  userId : option string
}.

(** [df_song_schema] applied to one JSON object. *)
Definition parse_song (o : gmap string jtoken) : option SongRecord :=
  f_artist_id ← field convert_string o "artist_id";
  f_artist_latitude ← field convert_double o "artist_latitude";
  f_artist_location ← field convert_string o "artist_location";
  f_artist_longitude ← field convert_double o "artist_longitude";
  f_artist_name ← field convert_string o "artist_name";
  f_duration ← field convert_double o "duration";
  f_num_songs ← field convert_integer o "num_songs";
  f_song_id ← field convert_string o "song_id";
  f_title ← field convert_string o "title";
  f_year ← field convert_integer o "year";
  Some {| artist_id := f_artist_id; artist_latitude := f_artist_latitude;
          artist_location := f_artist_location;
          artist_longitude := f_artist_longitude;
          artist_name := f_artist_name; duration := f_duration;
          num_songs := f_num_songs; song_id := f_song_id; title := f_title;
          year := f_year |}.

(** [df_log_schema] applied to one JSON object. *)
Definition parse_log (o : gmap string jtoken) : option LogEvent :=
  f_artist ← field convert_string o "artist";
  f_auth ← field convert_string o "auth";
  f_firstName ← field convert_string o "firstName";
  f_gender ← field convert_string o "gender";
  f_itemInSession ← field convert_integer o "itemInSession";
  f_lastName ← field convert_string o "lastName";
  f_length ← field convert_double o "length";
  f_level ← field convert_string o "level";
  f_location ← field convert_string o "location";
  f_method ← field convert_string o "method";
  f_page ← field convert_string o "page";
  f_registration ← field convert_double o "registration";
  f_sessionId ← field convert_integer o "sessionId";
  f_song ← field convert_string o "song";
  f_status ← field convert_integer o "status";
  f_ts ← field convert_long o "ts";
  f_userAgent ← field convert_string o "userAgent";
  f_userId ← field convert_string o "userId";
  Some {| artist := f_artist; auth := f_auth; firstName := f_firstName;
          gender := f_gender; itemInSession := f_itemInSession;
          lastName := f_lastName; length_ := f_length; level := f_level;
          location := f_location; method := f_method; page := f_page;
          registration := f_registration; sessionId := f_sessionId;
          song := f_song; status := f_status; ts := f_ts;
          userAgent := f_userAgent; userId := f_userId |}.

(** ** The Spark session *)

(** What a run takes from the engine: the records stored under a path
    pattern, and the way the engine lays a bag of rows out in partitions.
    The layout is any rearrangement of the rows; two runs may differ in it. *)
Record SparkSession := {
  stored : string → list jrecord;
  layout : ∀ A : Type, list A → list (list A);
  layout_perm : ∀ (A : Type) (l : list A), concat (layout A l) ≡ₚ l
}.

(** A schema applied to one record of a file; [None]: the record is
    malformed. *)
Definition conform {R} (schema : gmap string jtoken → option R)
    (r : jrecord) : option R :=
  match r with
  | NotJson => None
  | JsonObject o => schema o
  end.

(** [spark.read.json(path, schema, mode='DROPMALFORMED')]: a record that is
    not a JSON object, or one of whose fields does not convert, is left
    out; nothing is raised. *)
Definition read_json {R} (spark : SparkSession) (path : string)
    (schema : gmap string jtoken → option R) : list R :=
  concat (layout spark R (omap (conform schema) (stored spark path))).

Definition get_song_data_df (input_data : string) (spark : SparkSession)
    : list SongRecord :=
  let song_data := input_data +:+ "/song_data/*/*/*" in
  read_json spark song_data parse_song.

Definition get_log_data_df (input_data : string) (spark : SparkSession)
    : list LogEvent :=
  let log_data := input_data +:+ "log-data/*/*/*" in
  read_json spark log_data parse_log.

(** ** Temporal enrichment *)

(** A row of the view [staging_logs]: a log event with the two columns
    [enrich_log_data] adds. *)
Record StagingLog := {
  log : LogEvent;
  timestamp : datetime;
  start_time : string
}.

(** [get_timestamp = udf(lambda t: datetime.fromtimestamp(t / 1000.0))].
    A NULL [ts] reaches the lambda as [None] and the division raises. *)
Definition get_timestamp (t : option Z) : option datetime :=
  t ≫= λ t, fromtimestamp (div1000 t).

(** [get_datetime = udf(lambda x: str(x))] *)
Definition get_datetime (x : datetime) : string := str x.

(** The two columns [withColumn] adds to one row. *)
Definition enrich (e : LogEvent) : option StagingLog :=
  stamp ← get_timestamp (ts e);
  Some {| log := e; timestamp := stamp; start_time := get_datetime stamp |}.

(** [None]: [get_timestamp] raised on some row, which fails the job that
    evaluates the column. *)
Definition enrich_log_data (df_log_data : list LogEvent)
    : option (list StagingLog) :=
  mapM enrich df_log_data.

(** ** SQL operators *)

(** [a = b] of SQL in a join or filter condition: NULL equals nothing. *)
Definition sql_eq {A} `{EqDecision A} (a b : option A) : bool :=
  match a, b with
  | Some x, Some y => bool_decide (x = y)
  | _, _ => false
  end.

(** [a != 0] of SQL: NULL is not kept either. *)
Definition sql_ne_zero (a : option Z) : bool :=
  match a with
  | Some x => bool_decide (x ≠ 0)
  | None => false
  end.

(** [L INNER JOIN R ON on], as the pairs it ranges over. *)
Definition inner_join {A B} (on : A → B → bool) (L : list A) (R : list B)
    : list (A * B) :=
  l ← L; r ← R; if on l r then [(l, r)] else [].

(** [MAX] over a group: NULL for an empty one. *)
Definition sql_max (xs : list datetime) : option datetime :=
  foldr (λ x acc, match acc with
                  | None => Some x
                  | Some m => if datetime_le m x then Some x else Some m
                  end) None xs.

(** [SELECT key, MAX(value) FROM df GROUP BY key]: one row per distinct
    key, NULL keys forming a group of their own. *)
Definition group_by_max {A K} `{EqDecision K} (key : A → K)
    (value : A → datetime) (df : list A) : list (K * option datetime) :=
  (λ k, (k, sql_max (value <$> filter (λ r, key r = k) df)))
    <$> remove_dups (key <$> df).

(** The first row of each key, in the order the rows come. *)
Fixpoint keep_first {A K} `{EqDecision K} (key : A → K) (seen : list K)
    (l : list A) : list A :=
  match l with
  | [] => []
  | x :: l =>
      if decide (key x ∈ seen) then keep_first key seen l
      else x :: keep_first key (key x :: seen) l
  end.

(** [df.dropDuplicates(subset)]: one row of each key is kept, the one the
    engine meets first. *)
Definition dropDuplicates {A K} `{EqDecision K} (spark : SparkSession)
    (key : A → K) (df : list A) : list A :=
  keep_first key [] (concat (layout spark A df)).

(** A 64-bit signed [Long], with its wrap-around. *)
Definition wrap64 (z : Z) : Z := (z + 2 ^ 63) `mod` 2 ^ 64 - 2 ^ 63.

(** The rows of one partition, each with [partitionMask + count]. *)
Fixpoint number_rows {A} (partitionMask count : Z) (rows : list A)
    : list (A * Z) :=
  match rows with
  | [] => []
  | r :: rows =>
      (r, wrap64 (partitionMask + count))
        :: number_rows partitionMask (wrap64 (count + 1)) rows
  end.

(** [monotonically_increasing_id()]: the partition index in the upper 31
    bits, the position of the row in its partition in the lower 33. *)
Fixpoint monotonically_increasing_id {A} (partitionIndex : Z)
    (partitions : list (list A)) : list (A * Z) :=
  match partitions with
  | [] => []
  | p :: ps =>
      number_rows (wrap64 (Z.shiftl partitionIndex 33)) 0 p
        ++ monotonically_increasing_id (partitionIndex + 1) ps
  end.

(** ** The five tables *)

Record SongRow := {
  s_song_id : option string;
  s_song_title : option string;
  s_artist_id : option string;
  s_year : option Z;
  s_duration : option Double
}.

Record ArtistRow := {
  a_artist_id : option string;
  a_artist_name : option string;
  a_artist_location : option string;
  a_artist_latitude : option Double;
  a_artist_longitude : option Double
}.

Record UserRow := {
  u_userId : option string;
  u_level : option string;
  u_firstName : option string;
  u_lastName : option string;
  u_gender : option string
}.

Record TimeRow := {
  t_start_time : string;
  t_hour : option Z;
  t_day : option Z;
  t_week : option Z;
  t_month : option Z;
  t_year : option Z;
  t_weekday : option Z
}.

(** A row of [songplays] before [withColumn('songplay_id', ...)]. *)
Record SongplayFields := {
  p_start_time : string;
  p_userId : option string;
  p_level : option string;
  p_song_id : option string;
  p_artist_id : option string;
  p_sessionId : option Z;
  p_location : option string;
  p_userAgent : option string;
  p_year : option Z;
  p_month : option Z
}.

Record SongplayRow := {
  p_fields : SongplayFields;
  p_songplay_id : Z
}.

#[global] Instance SongRow_eq_dec : EqDecision SongRow.
Proof. solve_decision. Defined.
#[global] Instance ArtistRow_eq_dec : EqDecision ArtistRow.
Proof. solve_decision. Defined.
#[global] Instance UserRow_eq_dec : EqDecision UserRow.
Proof. solve_decision. Defined.
#[global] Instance TimeRow_eq_dec : EqDecision TimeRow.
Proof. solve_decision. Defined.
#[global] Instance SongplayFields_eq_dec : EqDecision SongplayFields.
Proof. solve_decision. Defined.

(** [SELECT song_id, title AS song_title, artist_id, year, duration] *)
Definition song_row (r : SongRecord) : SongRow :=
  {| s_song_id := song_id r; s_song_title := title r;
     s_artist_id := artist_id r; s_year := year r;
     s_duration := duration r |}.

(** [SELECT artist_id, artist_name, artist_location, artist_latitude,
    artist_longitude] *)
Definition artist_row (r : SongRecord) : ArtistRow :=
  {| a_artist_id := artist_id r; a_artist_name := artist_name r;
     a_artist_location := artist_location r;
     a_artist_latitude := artist_latitude r;
     a_artist_longitude := artist_longitude r |}.

(** [SELECT DISTINCT ... FROM staging_songs], then
    [songs.filter(songs.year != 0)] *)
Definition songs_table (staging_songs : list SongRecord) : list SongRow :=
  let songs := remove_dups (song_row <$> staging_songs) in
  filter (λ s, sql_ne_zero (s_year s) = true) songs.

Definition artists_table (staging_songs : list SongRecord)
    : list ArtistRow :=
  remove_dups (artist_row <$> staging_songs).

(** [df_log_data.filter(df_log_data.page == "NextSong")], enriched: the
    view [staging_logs]. *)
Definition staging_logs (df_log_data : list LogEvent)
    : option (list StagingLog) :=
  let df_log_data :=
    filter (λ e, sql_eq (page e) (Some "NextSong") = true) df_log_data in
  enrich_log_data df_log_data.

Definition user_row (l : StagingLog) : UserRow :=
  {| u_userId := userId (log l); u_level := level (log l);
     u_firstName := firstName (log l); u_lastName := lastName (log l);
     u_gender := gender (log l) |}.

(** [SELECT userId, MAX(timestamp) AS maxtimestamp FROM staging_logs
    GROUP BY userId, page] *)
Definition staging_logs_right (staging_logs : list StagingLog)
    : list (option string * option datetime) :=
  (λ g, (g.1.1, g.2))
    <$> group_by_max (λ l, (userId (log l), page (log l))) timestamp
          staging_logs.

(** The users query, before [dropDuplicates]. *)
Definition users_query (staging_logs : list StagingLog) : list UserRow :=
  (λ j, user_row j.1)
    <$> inner_join (λ l g, sql_eq (userId (log l)) g.1
                           && sql_eq (Some (timestamp l)) g.2)
          staging_logs (staging_logs_right staging_logs).

(** The columns [['userId', 'level']] of a row. *)
Definition user_key (u : UserRow) : option string * option string :=
  (u_userId u, u_level u).

Definition users_table (spark : SparkSession)
    (staging_logs : list StagingLog) : list UserRow :=
  dropDuplicates spark user_key (users_query staging_logs).

Definition time_row (l : StagingLog) : TimeRow :=
  {| t_start_time := start_time l;
     t_hour := sql_hour (start_time l);
     t_day := sql_day (start_time l);
     t_week := sql_weekofyear (start_time l);
     t_month := sql_month (start_time l);
     t_year := sql_year (start_time l);
     t_weekday := sql_weekday (start_time l) |}.

Definition time_table (staging_logs : list StagingLog) : list TimeRow :=
  remove_dups (time_row <$> staging_logs).

(** [staging_logs AS l INNER JOIN staging_songs AS r ON l.song = r.title] *)
Definition songplays_join (staging_logs : list StagingLog)
    (staging_songs : list SongRecord) : list (StagingLog * SongRecord) :=
  inner_join (λ l r, sql_eq (song (log l)) (title r))
    staging_logs staging_songs.

Definition songplay_fields (j : StagingLog * SongRecord) : SongplayFields :=
  let (l, r) := j in
  {| p_start_time := start_time l;
     p_userId := userId (log l);
     p_level := level (log l);
     p_song_id := song_id r;
     p_artist_id := artist_id r;
     p_sessionId := sessionId (log l);
     p_location := location (log l);
     p_userAgent := userAgent (log l);
     p_year := sql_year (start_time l);
     p_month := sql_month (start_time l) |}.

Definition songplays_table (spark : SparkSession)
    (staging_logs : list StagingLog) (staging_songs : list SongRecord)
    : list SongplayRow :=
  let rows := songplay_fields <$> songplays_join staging_logs staging_songs in
  (λ ri, {| p_fields := ri.1; p_songplay_id := ri.2 |})
    <$> monotonically_increasing_id 0 (layout spark _ rows).

(** ** Writing the tables *)

Inductive Table :=
  | Songs (rows : list SongRow)
  | Artists (rows : list ArtistRow)
  | Users (rows : list UserRow)
  | Time_ (rows : list TimeRow)
  | Songplays (rows : list SongplayRow).


(** One call [df.write.partitionBy(cols).parquet(path=..., mode=...)]. *)
Record ParquetWrite := {
  pw_table : Table;
  pw_partitionBy : list string;
  pw_path : string;
  pw_mode : string
}.

(** The calls the function makes, in order. *)
Definition process_song_data (spark : SparkSession)
    (input_data output_data : string) : list ParquetWrite :=
  let df_song_data := get_song_data_df input_data spark in
  let songs := songs_table df_song_data in
  let artists := artists_table df_song_data in
  [ {| pw_table := Songs songs;
       pw_partitionBy := ["year"; "artist_id"];
       pw_path := output_data +:+ "/songs/";
       pw_mode := "overwrite" |};
    {| pw_table := Artists artists;
       pw_partitionBy := [];
       pw_path := output_data +:+ "/artists/";
       pw_mode := "overwrite" |} ].

(** [None]: the enrichment raised. *)
Definition process_log_data (spark : SparkSession)
    (input_data output_data : string) : option (list ParquetWrite) :=
  let df_log_data := get_log_data_df input_data spark in
  df_log_data ← staging_logs df_log_data;
  let users := users_table spark df_log_data in
  let times := time_table df_log_data in
  let df_song_data := get_song_data_df input_data spark in
  let songplays := songplays_table spark df_log_data df_song_data in
  Some [ {| pw_table := Users users;
            pw_partitionBy := [];
            pw_path := output_data +:+ "/users/";
            pw_mode := "overwrite" |};
         {| pw_table := Time_ times;
            pw_partitionBy := ["year"; "month"];
            pw_path := output_data +:+ "/time/";
            pw_mode := "overwrite" |};
         {| pw_table := Songplays songplays;
            pw_partitionBy := ["year"; "month"];
            pw_path := output_data +:+ "/songplays/";
            pw_mode := "overwrite" |} ].

(** What a run leaves behind, and whether it ran to its end. *)
Record Run := {
  written : list ParquetWrite;
  completed : bool
}.

(** [main], from the two paths it reads in the configuration. *)
Definition main (spark : SparkSession) (input_data output_data : string)
    : Run :=
  let song_writes := process_song_data spark input_data output_data in
  match process_log_data spark input_data output_data with
  | Some log_writes =>
      {| written := song_writes ++ log_writes; completed := true |}
  | None => {| written := song_writes; completed := false |}
  end.

(** The tables of a run, by name. *)
Definition songs_of (spark : SparkSession) (input_data : string) :=
  songs_table (get_song_data_df input_data spark).
Definition logs_of (spark : SparkSession) (input_data : string) :=
  staging_logs (get_log_data_df input_data spark).
Definition users_of (spark : SparkSession) (input_data : string) :=
  users_table spark <$> logs_of spark input_data.
Definition songplays_of (spark : SparkSession) (input_data : string) :=
  (λ logs, songplays_table spark logs (get_song_data_df input_data spark))
    <$> logs_of spark input_data.

(** ** Notions the statements use *)






(** Stated from the specification: the pairs of an enriched event and a
    catalogue record whose song is the record's title. *)
Definition matching_pairs (logs : list StagingLog)
    (catalog : list SongRecord) : list (StagingLog * SongRecord) :=
  filter (λ p, is_Some (title p.2) ∧ song (log p.1) = title p.2)
         (list_prod logs catalog).


(** The identifiers of [monotonically_increasing_id] before any
    wrap-around: [partitionIndex * 2^33 + position]. *)
Fixpoint plain_ids {A} (partitionIndex : Z) (partitions : list (list A))
    : list Z :=
  match partitions with
  | [] => []
  | p :: ps =>
      ((λ j, partitionIndex * 2 ^ 33 + j) <$> seqZ 0 (Z.of_nat (length p)))
        ++ plain_ids (partitionIndex + 1) ps
  end.


End Model.

(** ** A host for the examples

    Decimal fixed point numbers with six fractional digits stand for the
    doubles, a [datetime] is its number of microseconds since the epoch on
    a clock that keeps UTC, and [str] renders it the way Python does.  The
    examples and the concrete runs below are evaluated on this host; the
    theorems hold on every host. *)
Module Reference.

Definition micro : Z := 1000000.

(** Year, month and day of a day number counted from 1970-01-01. *)
Definition civil_from_days (days : Z) : Z * Z * Z :=
  let z := days + 719468 in
  let era := z `div` 146097 in
  let doe := z - era * 146097 in
  let yoe := (doe - doe `div` 1460 + doe `div` 36524 - doe `div` 146096)
               `div` 365 in
  let doy := doe - (365 * yoe + yoe `div` 4 - yoe `div` 100) in
  let mp := (5 * doy + 2) `div` 153 in
  let d := doy - (153 * mp + 2) `div` 5 + 1 in
  let m := if bool_decide (mp < 10) then mp + 3 else mp - 9 in
  let y := yoe + era * 400 in
  (if bool_decide (m ≤ 2) then y + 1 else y, m, d).

Definition days_from_civil (y m d : Z) : Z :=
  let y := if bool_decide (m ≤ 2) then y - 1 else y in
  let era := y `div` 400 in
  let yoe := y - era * 400 in
  let mp := if bool_decide (m > 2) then m - 3 else m + 9 in
  let doy := (153 * mp + 2) `div` 5 + d - 1 in
  let doe := yoe * 365 + yoe `div` 4 - yoe `div` 100 + doy in
  era * 146097 + doe - 719468.

(** [n] in decimal on [width] digits. *)
Fixpoint digits (width : nat) (n : Z) : string :=
  match width with
  | O => ""
  | S w =>
      digits w (n `div` 10)
        +:+ String (Ascii.ascii_of_nat (48 + Z.to_nat (n `mod` 10))) ""
  end.

(** [YYYY-MM-DD HH:MM:SS], followed by [.ffffff] when the microseconds are
    not zero. *)
Definition render (t : Z) : string :=
  let secs := t `div` micro in
  let us := t `mod` micro in
  let '(y, m, d) := civil_from_days (secs `div` 86400) in
  let s := secs `mod` 86400 in
  digits 4 y +:+ "-" +:+ digits 2 m +:+ "-" +:+ digits 2 d +:+ " "
    +:+ digits 2 (s `div` 3600) +:+ ":" +:+ digits 2 ((s `mod` 3600) `div` 60)
    +:+ ":" +:+ digits 2 (s `mod` 60)
    +:+ (if bool_decide (us = 0) then "" else "." +:+ digits 6 us).

Definition of_epoch (d : Z) : option Z :=
  let '(y, _, _) := civil_from_days ((d `div` micro) `div` 86400) in
  if bool_decide (1 ≤ y ≤ 9999) then Some d else None.

Fixpoint number (s : string) (acc : Z) : option Z :=
  match s with
  | EmptyString => Some acc
  | String c s =>
      let n := Z.of_nat (Ascii.nat_of_ascii c) in
      if bool_decide (48 ≤ n ≤ 57) then number s (10 * acc + n - 48)
      else None
  end.

Definition digits_at (s : string) (pos len : nat) : option Z :=
  let part := String.substring pos len s in
  if bool_decide (String.length part = len) then number part 0 else None.

(** The date a string starts with. *)
Definition date_of (s : string) : option (Z * Z * Z) :=
  y ← digits_at s 0 4; m ← digits_at s 5 2; d ← digits_at s 8 2;
  if bool_decide (1 ≤ m ≤ 12 ∧ 1 ≤ d ≤ 31) then Some (y, m, d) else None.

Definition year_of (s : string) : option Z := (λ d, d.1.1) <$> date_of s.
Definition month_of (s : string) : option Z := (λ d, d.1.2) <$> date_of s.
Definition day_of (s : string) : option Z := (λ d, d.2) <$> date_of s.
Definition hour_of (s : string) : option Z :=
  date_of s ≫= λ _, digits_at s 11 2.

(** Monday is 0. *)
Definition weekday_of (s : string) : option Z :=
  (λ d, (days_from_civil d.1.1 d.1.2 d.2 + 3) `mod` 7) <$> date_of s.

(** The ISO week: that of the Thursday of the same week. *)
Definition weekofyear_of (s : string) : option Z :=
  (λ d, let days := days_from_civil d.1.1 d.1.2 d.2 in
        let thursday := days - (days + 3) `mod` 7 + 3 in
        let y := (civil_from_days thursday).1.1 in
        (thursday - days_from_civil y 1 1) `div` 7 + 1) <$> date_of s.

Lemma leb_total (a b : Z) : (a <=? b) = true ∨ (b <=? a) = true.
Proof. lia. Qed.

Lemma leb_trans (a b c : Z) :
  (a <=? b) = true → (b <=? c) = true → (a <=? c) = true.
Proof. lia. Qed.

Lemma leb_antisym (a b : Z) : (a <=? b) = true → (b <=? a) = true → a = b.
Proof. lia. Qed.

#[export] Instance host : Host := {|
  Double := Z;
  double_of_int z := z * micro;
  double_of_string _ := None;
  div1000 t := t * 1000;
  datetime := Z;
  datetime_le := Z.leb;
  datetime_le_total := leb_total;
  datetime_le_trans := leb_trans;
  datetime_le_antisym := leb_antisym;
  fromtimestamp := of_epoch;
  str := render;
  sql_hour := hour_of;
  sql_day := day_of;
  sql_weekofyear := weekofyear_of;
  sql_month := month_of;
  sql_year := year_of;
  sql_weekday := weekday_of
|}.

End Reference.

(** ** Concrete runs *)
Module Examples.
Import Reference.

Definition text (s : string) : jtoken := VALUE_STRING s.
Definition int (z : Z) : jtoken := VALUE_NUMBER_INT (pretty z) z.

(** Two ways an engine may hold its rows. *)
Definition one_partition (A : Type) (l : list A) : list (list A) := [l].
Fixpoint alternate {A} (l : list A) : list A * list A :=
  match l with
  | [] => ([], [])
  | x :: l => let (a, b) := alternate l in (x :: b, a)
  end.
Definition round_robin (A : Type) (l : list A) : list (list A) :=
  let (a, b) := alternate l in [a; b].

Lemma one_partition_perm (A : Type) (l : list A) :
  concat (one_partition A l) ≡ₚ l.
Proof. simpl. by rewrite app_nil_r. Qed.

Lemma alternate_perm {A} (l : list A) :
  (alternate l).1 ++ (alternate l).2 ≡ₚ l.
Proof.
  induction l as [|x l IH]; [done|]. simpl.
  destruct (alternate l) as [a b]. simpl in *.
  by rewrite (comm (++) b a), IH.
Qed.

Lemma round_robin_perm (A : Type) (l : list A) :
  concat (round_robin A l) ≡ₚ l.
Proof.
  unfold round_robin. pose proof (alternate_perm l) as Hl.
  destruct (alternate l) as [a b]. simpl in *. by rewrite app_nil_r.
Qed.

Definition files (songs logs : list jrecord) (path : string)
    : list jrecord :=
  if decide (path = "in//song_data/*/*/*") then songs
  else if decide (path = "in/log-data/*/*/*") then logs
  else [].

Definition session (songs logs : list jrecord) : SparkSession :=
  {| stored := files songs logs; layout := one_partition;
     layout_perm := one_partition_perm |}.

Definition session_round_robin (songs logs : list jrecord) : SparkSession :=
  {| stored := files songs logs; layout := round_robin;
     layout_perm := round_robin_perm |}.

Definition song_json (id title_ artist name_ : string) (year_ : Z)
    : jrecord :=
  JsonObject (list_to_map
    [("song_id", text id); ("title", text title_); ("artist_id", text artist);
     ("artist_name", text name_); ("year", int year_);
     ("duration", VALUE_NUMBER_FLOAT "180.0" 180000000)]).

Definition log_json (user first level_ page_ song_ : string) (ts_ : Z)
    : jrecord :=
  JsonObject (list_to_map
    [("userId", text user); ("firstName", text first);
     ("level", text level_); ("page", text page_); ("song", text song_);
     ("ts", int ts_); ("sessionId", int 100);
     ("location", text "X"); ("userAgent", text "UA")]).

(** The rows those two load as. *)
Definition a_song (id title_ artist name_ : string) (year_ : Z)
    : SongRecord :=
  {| artist_id := Some artist; artist_latitude := None;
     artist_location := None; artist_longitude := None;
     artist_name := Some name_; duration := Some 180000000;
     num_songs := None; song_id := Some id; title := Some title_;
     year := Some year_ |}.

Definition an_event (user first level_ page_ song_ : string) (ts_ : Z)
    : LogEvent :=
  {| artist := None; auth := None; firstName := Some first; gender := None;
     itemInSession := None; lastName := None; length_ := None;
     level := Some level_; location := Some "X"; method := None;
     page := Some page_; registration := None; sessionId := Some 100;
     song := Some song_; status := None; ts := Some ts_;
     userAgent := Some "UA"; userId := Some user |}.

(** An event on the page "NextSong", enriched. *)
Definition a_play (user first level_ song_ : string) (ts_ : Z)
    : StagingLog :=
  {| log := an_event user first level_ "NextSong" song_ ts_;
     timestamp := ts_ * 1000;
     start_time := render (ts_ * 1000) |}.

Definition a_user (id first level_ : string) : UserRow :=
  {| u_userId := Some id; u_level := Some level_; u_firstName := Some first;
     u_lastName := None; u_gender := None |}.

(** The columns of a song play that the examples look at. *)
Definition play_summary (r : SongplayRow)
    : option string * option string * option string * option string
      * string * option Z * option Z * Z :=
  (p_userId (p_fields r), p_level (p_fields r), p_song_id (p_fields r),
   p_artist_id (p_fields r), p_start_time (p_fields r), p_year (p_fields r),
   p_month (p_fields r), p_songplay_id r).

Definition play_summaries (t : option (list SongplayRow)) :=
  (λ rows : list SongplayRow, play_summary <$> rows) <$> t.

(** The end-to-end scenario of the specification. *)
Definition scenario : SparkSession :=
  session [song_json "S1" "Test Song" "A1" "Artist" 2000]
          [log_json "1" "Ann" "free" "NextSong" "Test Song" 1540000000000].




(** A title carried by two artists, a song of unknown year, an event whose
    song is in no catalogue record and one that is not a song play. *)
Definition catalogue : list jrecord :=
  [song_json "S1" "Test Song" "A1" "Artist" 2000;
   song_json "S2" "Test Song" "A2" "Other" 1999;
   song_json "S3" "Old Song" "A3" "Third" 0;
   NotJson].
Definition activity : list jrecord :=
  [log_json "1" "Ann" "free" "NextSong" "Test Song" 1540000000000;
   log_json "2" "Bob" "paid" "NextSong" "Old Song" 1540000001000;
   log_json "2" "Bob" "paid" "NextSong" "test song" 1540000002000;
   log_json "3" "Cid" "free" "Home" "Test Song" 1540000003000].
Definition fan_out : SparkSession := session catalogue activity.
Definition fan_out_again : SparkSession :=
  session_round_robin catalogue activity.

(** A song record with no [song_id] key, a log record with no [userId]. *)
Definition anonymous : SparkSession :=
  session
    [JsonObject (list_to_map [("title", text "Test Song"); ("year", int 2000)])]
    [JsonObject (list_to_map [("page", text "NextSong"); ("ts", int 0)])].

End Examples.

(** * Properties *)

Section Properties.
Context `{Host}.

(** ** Reading *)




(** ** SQL operators *)

Lemma sql_eq_true {A} `{EqDecision A} (a b : option A) :
  sql_eq a b = true ↔ ∃ x, a = Some x ∧ b = Some x.
Proof.
  destruct a as [x|], b as [y|]; simpl; try (split; [done|by intros (?&?&?)]).
  rewrite bool_decide_eq_true. split; [intros ->; eauto|].
  by intros (?&[= ->]&[= ->]).
Qed.

Lemma sql_ne_zero_true (a : option Z) :
  sql_ne_zero a = true ↔ ∃ x, a = Some x ∧ x ≠ 0.
Proof.
  destruct a as [x|]; simpl; [|split; [done|by intros (?&?&?)]].
  rewrite bool_decide_eq_true. split; [eauto|]. by intros (?&[= ->]&?).
Qed.

Lemma elem_of_inner_join {A B} (on : A → B → bool) L R l r :
  (l, r) ∈ inner_join on L R ↔ l ∈ L ∧ r ∈ R ∧ on l r = true.
Proof.
  unfold inner_join. rewrite list_elem_of_bind. split.
  - intros (l' & Hin & Hl). apply list_elem_of_bind in Hin as (r' & Hin & Hr).
    destruct (on l' r') eqn:Hon; [|by apply elem_of_nil in Hin].
    apply list_elem_of_singleton in Hin as [= -> ->]. done.
  - intros (Hl & Hr & Hon). exists l. split; [|done].
    apply list_elem_of_bind. exists r. rewrite Hon. split; [|done].
    apply list_elem_of_singleton. done.
Qed.

Lemma inner_join_one {A B} (on : A → B → bool) (l : A) (R : list B) :
  (R ≫= λ r, if on l r then [(l, r)] else [])
  = filter (λ p, on p.1 p.2 = true) (map (λ r, (l, r)) R).
Proof.
  induction R as [|r R IH]; [done|].
  cbn [map]. rewrite filter_cons, <-IH. cbn.
  by destruct (on l r).
Qed.

Lemma inner_join_list_prod {A B} (on : A → B → bool) L R :
  inner_join on L R = filter (λ p, on p.1 p.2 = true) (list_prod L R).
Proof.
  unfold inner_join. induction L as [|l L IH]; [done|]. cbn.
  rewrite filter_app. f_equal; [|done].
  apply inner_join_one.
Qed.

Lemma length_inner_join_one {A B} (on : A → B → bool) (l : A) (R : list B) :
  length (R ≫= λ r, if on l r then [(l, r)] else [])
  = length (filter (λ r, on l r = true) R).
Proof.
  induction R as [|r R IH]; [done|].
  rewrite filter_cons. cbn. rewrite length_app, IH.
  by destruct (on l r).
Qed.

Lemma length_inner_join {A B} (on : A → B → bool) L R :
  length (inner_join on L R)
  = sum_list ((λ l, length (filter (λ r, on l r = true) R)) <$> L).
Proof.
  unfold inner_join. induction L as [|l L IH]; [done|]. cbn.
  by rewrite length_app, length_inner_join_one, IH.
Qed.

(** ** Row identifiers *)

Lemma number_rows_fst {A} mask c (rows : list A) :
  (number_rows mask c rows).*1 = rows.
Proof.
  revert c. induction rows as [|r rows IH]; intros c; [done|].
  cbn. by rewrite IH.
Qed.

Lemma monotonically_increasing_id_fst {A} i (parts : list (list A)) :
  (monotonically_increasing_id i parts).*1 = concat parts.
Proof.
  revert i. induction parts as [|p ps IH]; intros i; [done|].
  cbn. by rewrite fmap_app, number_rows_fst, IH.
Qed.

(** ** The song play table *)

Lemma songplays_table_fields spark logs catalog :
  p_fields <$> songplays_table spark logs catalog
    ≡ₚ songplay_fields <$> songplays_join logs catalog.
Proof.
  unfold songplays_table. cbn zeta. rewrite <-list_fmap_compose.
  change (_ <$> ?l) with (l.*1) at 1.
  rewrite monotonically_increasing_id_fst. apply layout_perm.
Qed.

Lemma song_is_title (l : StagingLog) (r : SongRecord) :
  sql_eq (song (log l)) (title r) = true
  ↔ is_Some (title r) ∧ song (log l) = title r.
Proof.
  rewrite sql_eq_true. split.
  - intros (s & -> & ->). eauto.
  - intros [[s Hs] Hl]. exists s. by rewrite Hl.
Qed.

Lemma songplays_join_matching logs catalog :
  songplays_join logs catalog = matching_pairs logs catalog.
Proof.
  unfold songplays_join, matching_pairs. rewrite inner_join_list_prod.
  apply list_filter_iff. intros [l r]. apply song_is_title.
Qed.

(** C3. A song play row is produced exactly for each pair of an enriched
    log event and a catalogue record whose title is the event's song, the
    comparison being that of the strings themselves (NULL matches
    nothing): up to the order of the rows, the table without its
    identifiers is the image of those pairs; an event whose song is no
    catalogue title is in no pair; and the table has, for each event, as
    many rows as the catalogue has records of that title, duplicates
    included. *)
Theorem songplays_one_row_per_match spark logs catalog :
  p_fields <$> songplays_table spark logs catalog
    ≡ₚ songplay_fields <$> matching_pairs logs catalog
  ∧ (∀ l r, (l, r) ∈ matching_pairs logs catalog
            ↔ l ∈ logs ∧ r ∈ catalog
              ∧ ∃ s, song (log l) = Some s ∧ title r = Some s)
  ∧ (∀ l, (∀ r, r ∈ catalog → song (log l) ≠ title r) →
          ∀ r, (l, r) ∉ matching_pairs logs catalog)
  ∧ length (songplays_table spark logs catalog)
    = sum_list ((λ l, length (filter
                  (λ r, is_Some (title r) ∧ song (log l) = title r) catalog))
                <$> logs).
Proof.
  assert (Hin : ∀ l r, (l, r) ∈ matching_pairs logs catalog
            ↔ l ∈ logs ∧ r ∈ catalog
              ∧ ∃ s, song (log l) = Some s ∧ title r = Some s).
  { intros l r. rewrite <-songplays_join_matching.
    unfold songplays_join. rewrite elem_of_inner_join, sql_eq_true. done. }
  split_and!.
  - rewrite <-songplays_join_matching. apply songplays_table_fields.
  - done.
  - intros l Hno r [_ [Hr (s & Hl & Ht)]]%Hin. apply (Hno r Hr). congruence.
  - rewrite <-(length_fmap p_fields), songplays_table_fields, length_fmap.
    unfold songplays_join. rewrite length_inner_join. f_equal.
    apply list_fmap_ext. intros _ l _. f_equal.
    apply list_filter_iff. intros r. apply song_is_title.
Qed.


(** C10. A catalogue record of year 0 whose title is the song of an
    enriched log event gives a song play row carrying its [song_id], while
    its projected fields are no row of the songs table; when every
    catalogue record of that [song_id] has year 0, the songs table has no
    row of that [song_id] at all. *)
Theorem songplay_of_song_outside_songs spark input_data logs l r s :
  logs_of spark input_data = Some logs →
  l ∈ logs →
  r ∈ get_song_data_df input_data spark →
  year r = Some 0 →
  song (log l) = Some s →
  title r = Some s →
  ∃ table,
    songplays_of spark input_data = Some table
    ∧ (∃ row, row ∈ table ∧ p_fields row = songplay_fields (l, r)
              ∧ p_song_id (p_fields row) = song_id r)
    ∧ (song_row r ∉ songs_of spark input_data)
    ∧ ((∀ r', r' ∈ get_song_data_df input_data spark →
              song_id r' = song_id r → year r' = Some 0) →
       ∀ row, row ∈ songs_of spark input_data → s_song_id row ≠ song_id r).
Proof.
  intros Hlogs Hl Hr Hyear Hsong Htitle.
  exists (songplays_table spark logs (get_song_data_df input_data spark)).
  split_and!.
  - unfold songplays_of. by rewrite Hlogs.
  - assert (songplay_fields (l, r)
            ∈ p_fields <$> songplays_table spark logs
                             (get_song_data_df input_data spark)) as Hrow.
    { rewrite songplays_table_fields. apply list_elem_of_fmap_2.
      apply elem_of_inner_join. split_and!; [done..|].
      apply sql_eq_true. eauto. }
    apply list_elem_of_fmap in Hrow as (row & Hrow & Hin).
    exists row. split_and!; [done|done|by rewrite <-Hrow].
  - unfold songs_of, songs_table. cbn zeta.
    rewrite list_elem_of_filter, sql_ne_zero_true.
    intros [(y & Hy & Hne) _]. simpl in Hy. congruence.
  - intros Hall row. unfold songs_of, songs_table. cbn zeta.
    rewrite list_elem_of_filter, sql_ne_zero_true, elem_of_remove_dups.
    intros [(y & Hy & Hne) (r' & -> & Hr')%list_elem_of_fmap] Hid.
    simpl in *. specialize (Hall r' Hr' Hid). congruence.
Qed.

Lemma wrap64_small z : - 2 ^ 63 ≤ z < 2 ^ 63 → wrap64 z = z.
Proof. intros Hz. unfold wrap64. rewrite Z.mod_small; lia. Qed.

Lemma wrap64_add_l a b : wrap64 (wrap64 a + b) = wrap64 (a + b).
Proof.
  unfold wrap64. f_equal.
  replace ((a + 2 ^ 63) `mod` 2 ^ 64 - 2 ^ 63 + b + 2 ^ 63)
    with ((a + 2 ^ 63) `mod` 2 ^ 64 + b) by lia.
  rewrite Zplus_mod_idemp_l. f_equal. lia.
Qed.


Lemma number_rows_snd {A} mask c (rows : list A) :
  0 ≤ c → c + Z.of_nat (length rows) ≤ 2 ^ 33 →
  (number_rows mask c rows).*2
  = (λ j, wrap64 (mask + j)) <$> seqZ c (Z.of_nat (length rows)).
Proof.
  revert c. induction rows as [|r rows IH]; intros c Hc Hlen; [done|].
  rewrite seqZ_cons by (simpl; lia). cbn [number_rows fmap list_fmap].
  cbn [length] in Hlen. f_equal.
  rewrite wrap64_small by lia. rewrite IH by lia.
  do 2 f_equal; simpl; lia.
Qed.

Lemma monotonically_increasing_id_snd {A} i (parts : list (list A)) :
  0 ≤ i → Forall (λ p, Z.of_nat (length p) ≤ 2 ^ 33) parts →
  (monotonically_increasing_id i parts).*2 = wrap64 <$> plain_ids i parts.
Proof.
  intros Hi Hparts. revert i Hi.
  induction Hparts as [|p ps Hp _ IH]; intros i Hi; [done|].
  cbn [monotonically_increasing_id plain_ids].
  rewrite !fmap_app, IH by lia. f_equal.
  rewrite number_rows_snd by lia. rewrite <-list_fmap_compose.
  apply list_fmap_ext. intros _ j _. simpl.
  by rewrite wrap64_add_l, Z.shiftl_mul_pow2 by lia.
Qed.

Lemma plain_ids_range {A} i (parts : list (list A)) x :
  0 ≤ i → Forall (λ p, Z.of_nat (length p) ≤ 2 ^ 33) parts →
  x ∈ plain_ids i parts →
  i * 2 ^ 33 ≤ x < (i + Z.of_nat (length parts)) * 2 ^ 33.
Proof.
  intros Hi Hparts. revert i Hi.
  induction Hparts as [|p ps Hp _ IH]; intros i Hi; cbn [plain_ids length].
  - by intros ?%elem_of_nil.
  - rewrite elem_of_app, list_elem_of_fmap. intros [(j & -> & Hj)|Hx].
    + apply elem_of_seqZ in Hj. lia.
    + apply IH in Hx; lia.
Qed.




(** ** Enrichment *)







(** ** The users table *)


















(** ** Two runs on the same files *)











Section two_runs.
Variables (s1 s2 : SparkSession) (input_data : string).
Hypothesis same_files : ∀ path, stored s1 path = stored s2 path.









End two_runs.


(** ** The writes *)


(** ** The schema conformance loader *)
















End Properties.

(** * Further properties of the tables *)

Section Further.
Context `{Host}.

(** ** The song and artist tables *)


(** ** The time table *)


(** ** The users table, continued *)



(** ** The song plays and the other tables *)


(** ** Failure of the enrichment *)


(** ** Row identifiers, continued *)

Lemma seqZ_sorted m n : StronglySorted Z.lt (seqZ m n).
Proof.
  remember (Z.to_nat n) as k eqn:Hk. revert m n Hk.
  induction k as [|k IH]; intros m n Hk.
  - rewrite seqZ_nil by lia. constructor.
  - rewrite seqZ_cons by lia. constructor; [apply IH; lia|].
    apply Forall_forall. intros x Hx%elem_of_seqZ. lia.
Qed.

Lemma plain_ids_sorted {A} i (parts : list (list A)) :
  0 ≤ i → Forall (λ p, Z.of_nat (length p) ≤ 2 ^ 33) parts →
  StronglySorted Z.lt (plain_ids i parts).
Proof.
  intros Hi Hparts. revert i Hi.
  induction Hparts as [|p ps Hp Hps IH]; intros i Hi; cbn [plain_ids].
  - constructor.
  - apply StronglySorted_app_2.
    + intros x y (j & -> & Hj)%list_elem_of_fmap Hy.
      apply elem_of_seqZ in Hj. apply plain_ids_range in Hy; [lia|lia|done].
    + apply (StronglySorted_fmap _ Z.lt); [intros; lia|apply seqZ_sorted].
    + apply IH. lia.
Qed.

(** With at most 2^30 partitions of at most 2^33 rows each, the
    identifiers of the song play table are non-negative and strictly
    increasing in the order in which the engine holds the rows. *)
Theorem songplay_id_increasing spark logs catalog :
  let partitions :=
    layout spark _ (songplay_fields <$> songplays_join logs catalog) in
  Z.of_nat (length partitions) ≤ 2 ^ 30 →
  Forall (λ p, Z.of_nat (length p) ≤ 2 ^ 33) partitions →
  StronglySorted Z.lt (p_songplay_id <$> songplays_table spark logs catalog)
  ∧ Forall (λ id, 0 ≤ id < 2 ^ 63)
      (p_songplay_id <$> songplays_table spark logs catalog).
Proof.
  intros partitions Hlen Hparts.
  unfold songplays_table. cbn zeta. rewrite <-list_fmap_compose.
  change (_ <$> ?l) with (l.*2). fold partitions.
  rewrite monotonically_increasing_id_snd by done.
  assert (Forall (λ id, 0 ≤ id < 2 ^ 63) (plain_ids 0 partitions)) as Hrange.
  { apply Forall_forall. intros x Hx%plain_ids_range; [lia|lia|done]. }
  assert (wrap64 <$> plain_ids 0 partitions = plain_ids 0 partitions) as ->.
  { rewrite <-(list_fmap_id (plain_ids 0 partitions)) at 2.
    apply Forall_fmap_ext. eapply Forall_impl; [exact Hrange|].
    intros x Hx. unfold id. apply wrap64_small. cbv beta in Hx. lia. }
  split; [by apply plain_ids_sorted|done].
Qed.

(** ** The loader, continued *)

Lemma field_insert_ne {A} (conv : jtoken → option (option A)) o k t name :
  name ≠ k → field conv (<[k:=t]> o) name = field conv o name.
Proof. intros Hne. unfold field. by rewrite lookup_insert_ne. Qed.

(** A key that no field of the schema names plays no part in loading a
    record: whatever value it has, the record is dropped or loaded as
    without it, with the same row. *)
Theorem keys_outside_schema_ignored k t o :
  (k ∉ df_song_schema.*1 → parse_song (<[k:=t]> o) = parse_song o)
  ∧ (k ∉ df_log_schema.*1 → parse_log (<[k:=t]> o) = parse_log o).
Proof.
  split; intros Hk.
  - unfold parse_song.
    rewrite !field_insert_ne
      by (intros <-; apply Hk; cbn; repeat constructor).
    done.
  - unfold parse_log.
    rewrite !field_insert_ne
      by (intros <-; apply Hk; cbn; repeat constructor).
    done.
Qed.







(** ** Input without a well-formed record *)





(** ** Each table and the tree it is read from *)


(** ** Latest wins *)


(** ** NULL and absent keys *)

Lemma field_null {A} (conv : jtoken → option (option A)) o k name :
  conv VALUE_NULL = Some None →
  field conv (<[k:=VALUE_NULL]> o) name = field conv (delete k o) name.
Proof.
  intros Hnull. unfold field. destruct (decide (k = name)) as [->|Hne].
  - by rewrite lookup_insert_eq, lookup_delete_eq.
  - by rewrite lookup_insert_ne, lookup_delete_ne.
Qed.

(** A key with the value [null] is loaded as an absent key, for every key
    of a song or log record. *)
Theorem null_is_absent k o :
  parse_song (<[k:=VALUE_NULL]> o) = parse_song (delete k o)
  ∧ parse_log (<[k:=VALUE_NULL]> o) = parse_log (delete k o).
Proof.
  split.
  - unfold parse_song. by rewrite !field_null.
  - unfold parse_log. by rewrite !field_null.
Qed.

End Further.

(** * The concrete runs, evaluated *)

Import Reference Examples.

Lemma scenario_logs :
  logs_of scenario "in/"
  = Some [a_play "1" "Ann" "free" "Test Song" 1540000000000].
Proof. reflexivity. Qed.






Lemma fan_out_songs :
  get_song_data_df "in/" fan_out
  = [a_song "S1" "Test Song" "A1" "Artist" 2000;
     a_song "S2" "Test Song" "A2" "Other" 1999;
     a_song "S3" "Old Song" "A3" "Third" 0].
Proof. reflexivity. Qed.

Lemma fan_out_logs :
  logs_of fan_out "in/"
  = Some [a_play "1" "Ann" "free" "Test Song" 1540000000000;
          a_play "2" "Bob" "paid" "Old Song" 1540000001000;
          a_play "2" "Bob" "paid" "test song" 1540000002000].
Proof. reflexivity. Qed.

(** The end-to-end scenario of the specification: one row in each of the
    songs, users and song play tables. *)
Example scenario_tables :
  songs_of scenario "in/"
  = [song_row (a_song "S1" "Test Song" "A1" "Artist" 2000)]
  ∧ users_of scenario "in/" = Some [a_user "1" "Ann" "free"]
  ∧ play_summaries (songplays_of scenario "in/")
    = Some [(Some "1", Some "free", Some "S1", Some "A1",
             "2018-10-20 01:46:40", Some 2018, Some 10, 0)].
Proof. split_and!; reflexivity. Qed.

(** An event on another page than "NextSong" is in no table; a title of
    two catalogue records gives two song plays; a title in another case
    gives none; the identifiers follow the layout of the engine. *)
Example fan_out_tables :
  users_of fan_out "in/"
  = Some [a_user "1" "Ann" "free"; a_user "2" "Bob" "paid"]
  ∧ play_summaries (songplays_of fan_out "in/")
    = Some [(Some "1", Some "free", Some "S1", Some "A1",
             "2018-10-20 01:46:40", Some 2018, Some 10, 0);
            (Some "1", Some "free", Some "S2", Some "A2",
             "2018-10-20 01:46:40", Some 2018, Some 10, 1);
            (Some "2", Some "paid", Some "S3", Some "A3",
             "2018-10-20 01:46:41", Some 2018, Some 10, 2)]
  ∧ play_summaries (songplays_of fan_out_again "in/")
    = Some [(Some "1", Some "free", Some "S1", Some "A1",
             "2018-10-20 01:46:40", Some 2018, Some 10, 0);
            (Some "2", Some "paid", Some "S3", Some "A3",
             "2018-10-20 01:46:41", Some 2018, Some 10, 1);
            (Some "1", Some "free", Some "S2", Some "A2",
             "2018-10-20 01:46:40", Some 2018, Some 10, 8589934592)].
Proof. split_and!; reflexivity. Qed.

(** Records without their identifier load as rows with a NULL one. *)
Example anonymous_rows :
  song_id <$> get_song_data_df "in/" anonymous = [None]
  ∧ title <$> get_song_data_df "in/" anonymous = [Some "Test Song"]
  ∧ userId <$> get_log_data_df "in/" anonymous = [None]
  ∧ page <$> get_log_data_df "in/" anonymous = [Some "NextSong"].
Proof. split_and!; reflexivity. Qed.

(** ** Where the stated properties fail *)




(** ** The theorems at concrete runs *)

Ltac evaluate_layout :=
  match goal with
  | |- context [layout ?s ?A ?l] =>
      let v := eval vm_compute in (layout s A l) in
      change (layout s A l) with v
  end.




Lemma songplay_of_song_outside_songs_witness :
  ∃ table,
    songplays_of fan_out "in/" = Some table
    ∧ (∃ row, row ∈ table
              ∧ p_fields row
                = songplay_fields
                    (a_play "2" "Bob" "paid" "Old Song" 1540000001000,
                     a_song "S3" "Old Song" "A3" "Third" 0)
              ∧ p_song_id (p_fields row) = Some "S3")
    ∧ (song_row (a_song "S3" "Old Song" "A3" "Third" 0)
       ∉ songs_of fan_out "in/")
    ∧ ((∀ r', r' ∈ get_song_data_df "in/" fan_out →
              song_id r' = Some "S3" → year r' = Some 0) →
       ∀ row, row ∈ songs_of fan_out "in/" → s_song_id row ≠ Some "S3").
Proof.
  apply (songplay_of_song_outside_songs fan_out "in/" _
           (a_play "2" "Bob" "paid" "Old Song" 1540000001000)
           (a_song "S3" "Old Song" "A3" "Third" 0) "Old Song" fan_out_logs).
  - repeat constructor.
  - rewrite fan_out_songs. repeat constructor.
  - reflexivity.
  - reflexivity.
  - reflexivity.
Defined.




(** ** The further properties at concrete runs *)





Lemma songplay_id_increasing_witness :
  StronglySorted Z.lt
    (p_songplay_id
       <$> songplays_table fan_out_again
             [a_play "1" "Ann" "free" "Test Song" 1540000000000;
              a_play "2" "Bob" "paid" "Old Song" 1540000001000;
              a_play "2" "Bob" "paid" "test song" 1540000002000]
             (get_song_data_df "in/" fan_out_again))
  ∧ Forall (λ id, 0 ≤ id < 2 ^ 63)
      (p_songplay_id
         <$> songplays_table fan_out_again
               [a_play "1" "Ann" "free" "Test Song" 1540000000000;
                a_play "2" "Bob" "paid" "Old Song" 1540000001000;
                a_play "2" "Bob" "paid" "test song" 1540000002000]
               (get_song_data_df "in/" fan_out_again)).
Proof.
  apply (songplay_id_increasing fan_out_again).
  - evaluate_layout. simpl. lia.
  - evaluate_layout. repeat constructor; simpl; lia.
Defined.



Lemma keys_outside_schema_ignored_witness :
  parse_song (<["comment":=text "x"]> ∅) = parse_song ∅.
Proof.
  apply (proj1 (keys_outside_schema_ignored "comment" (text "x") ∅)).
  intros Hin. repeat (apply elem_of_cons in Hin as [Hin|Hin]; [discriminate|]).
  by apply elem_of_nil in Hin.
Defined.


(** A "NextSong" event without [ts] stops the run after the two song
    writes; the same event on another page does not. *)
Example missing_ts_stops_the_run :
  completed (main (session [] [JsonObject (list_to_map
               [("page", text "NextSong")])]) "in/" "out") = false
  ∧ length (written (main (session [] [JsonObject (list_to_map
               [("page", text "NextSong")])]) "in/" "out")) = 2%nat
  ∧ completed (main (session [] [JsonObject (list_to_map
               [("page", text "Home")])]) "in/" "out") = true.
Proof. split_and!; reflexivity. Qed.
